(** * Fused layer-normalisation forward kernel ([src/layer_norm_forward.py])

    A shallow embedding of the Triton kernel [_layer_norm_fwd_fused] and the
    properties of one program instance (one row), run as the interpreter
    runs it, statement by statement.

    - Device memory is a store from locations (a tensor and an element index)
      to stored values; the six tensors the launcher passes are separate
      buffers.
    - Every element a [tl.load] / [tl.store] really touches (an active lane of
      its mask) is logged in a trace, in program order.
    - The kernel body is written in a state-and-exception monad over
      (memory, trace): a library call can raise, and what was read and
      written before stays.
    - Stored values (type [E], the element type of the tensors) and float32
      values (type [F]) are kept apart: an element enters the arithmetic
      through an upcast and leaves it through the cast of a store.  The
      arithmetic is a parameter; it is instantiated with the reals (exact
      arithmetic) and with the rationals (to run the code).
    - Sizes, indices and the program id are natural numbers; the wrap-around
      of the device's 32-bit integers is outside the model. *)

From Stdlib Require Import String.
From Stdlib Require Import List Arith Bool Lia Permutation.
From Stdlib Require Import QArith Qround.
From Stdlib Require Import Reals Lra.
Import ListNotations.

Set Default Proof Using "Type".
Local Close Scope Q_scope.
Local Close Scope R_scope.
Local Close Scope string_scope.
Local Open Scope nat_scope.

(** ** Memory, pointers and the access trace *)

Inductive buffer : Type := BufX | BufY | BufW | BufB | BufMean | BufRstd.

Definition buffer_eqb (a b : buffer) : bool :=
  match a, b with
  | BufX, BufX | BufY, BufY | BufW, BufW
  | BufB, BufB | BufMean, BufMean | BufRstd, BufRstd => true
  | _, _ => false
  end.

(** A pointer is a tensor together with an element offset into it. *)
Definition ptr : Type := (buffer * nat)%type.

Definition ptr_eqb (p q : ptr) : bool :=
  buffer_eqb (fst p) (fst q) && Nat.eqb (snd p) (snd q).

(** [P + k] on a pointer. *)
Definition ptr_add (p : ptr) (k : nat) : ptr := (fst p, snd p + k).

(** [P + off] for a block of offsets: a block of pointers. *)
Definition ptr_add_block (p : ptr) (off : list nat) : list ptr :=
  map (ptr_add p) off.

Inductive event : Type :=
| EvLoad (p : ptr)
| EvStore (p : ptr).

Definition is_store (e : event) : bool :=
  match e with EvStore _ => true | EvLoad _ => false end.


(** The exceptions the library calls of the kernel can raise. *)
Inductive exn : Type := TypeError | ValueError.

Inductive outcome (A : Type) : Type :=
| Ok (a : A)
| Raise (e : exn).

Arguments Ok {A} a.
Arguments Raise {A} e.

Definition memory (E : Type) : Type := ptr -> E.

Definition upd {E : Type} (m : memory E) (p : ptr) (v : E) : memory E :=
  fun q => if ptr_eqb p q then v else m q.

Record state (E : Type) : Type :=
  mkState { mem : memory E; trace : list event }.

Arguments mkState {E} mem trace.
Arguments mem {E} s.
Arguments trace {E} s.

(** The monad of the kernel body: a computation ends with a value or with
    an exception, and in both cases leaves a state. *)
Definition M (E A : Type) : Type := state E -> outcome A * state E.

Definition ret {E A : Type} (a : A) : M E A := fun s => (Ok a, s).

Definition raise {E A : Type} (e : exn) : M E A := fun s => (Raise e, s).

Definition bind {E A B : Type} (m : M E A) (k : A -> M E B) : M E B :=
  fun s =>
    match m s with
    | (Ok a, s') => k a s'
    | (Raise e, s') => (Raise e, s')
    end.

(** One element read, logged. *)
Definition load1 {E : Type} (p : ptr) : M E E :=
  fun s => (Ok (mem s p), mkState (mem s) (trace s ++ [EvLoad p])).

(** One element written, logged. *)
Definition store1 {E : Type} (p : ptr) (v : E) : M E unit :=
  fun s => (Ok tt, mkState (upd (mem s) p v) (trace s ++ [EvStore p])).

Declare Scope kernel_scope.
Delimit Scope kernel_scope with kernel.
Notation "x <- m ;; k" := (bind m (fun x => k))
  (at level 61, m at next level, right associativity) : kernel_scope.
Notation "m ;;; k" := (bind m (fun _ => k))
  (at level 61, right associativity) : kernel_scope.

(** ** The arithmetic

    [E] is the element type of the tensors, [F] is float32.  The fields:
    the float32 operations; [of_int], an integer operand promoted to
    float32 ([0], [1], [N]); [to_f32], the explicit [.to(tl.float32)];
    [promote], the implicit promotion of a stored operand that meets a
    float32 operand in an arithmetic operation; [cast_to], the implicit cast
    of [tl.store] to the element type of the tensor written; [s_zero], the
    [other = 0.] of a load in the element type of the tensor; [undef], what
    an inactive lane of a [tl.load] without [other] holds. *)
Record arith (E F : Type) : Type := mkArith {
  fadd : F -> F -> F;
  fsub : F -> F -> F;
  fmul : F -> F -> F;
  fdiv : F -> F -> F;
  fsqrt : F -> F;
  of_int : nat -> F;
  to_f32 : E -> F;
  promote : E -> F;
  cast_to : buffer -> F -> E;
  s_zero : E;
  undef : E
}.

Arguments fadd {E F} a.
Arguments fsub {E F} a.
Arguments fmul {E F} a.
Arguments fdiv {E F} a.
Arguments fsqrt {E F} a.
Arguments of_int {E F} a.
Arguments to_f32 {E F} a.
Arguments promote {E F} a.
Arguments cast_to {E F} a.
Arguments s_zero {E F} a.
Arguments undef {E F} a.


Definition fzero {E F : Type} (A : arith E F) : F := of_int A 0.

(** ** The library calls the kernel makes *)

(** Triton accepts a block shape only if it is a power of two. *)
Definition is_pow2 (n : nat) : bool := n =? 2 ^ Nat.log2 n.

(** Python's [range(start, stop, step)] for a positive step.  The loop
    variable advances by [step] while it is below [stop]; [stop - start]
    iterations bound the loop when [step >= 1]. *)
Fixpoint range_from (fuel start stop step : nat) : list nat :=
  match fuel with
  | 0 => []
  | S fuel' =>
      if start <? stop
      then start :: range_from fuel' (start + step) stop step
      else []
  end.

Definition range (start stop step : nat) : list nat :=
  range_from (stop - start) start stop step.

Section Triton.

Context {E F : Type}.

(** [range(start, stop, step)] as the loop header evaluates it: a zero
    step raises ValueError. *)
Definition py_range (start stop step : nat) : M E (list nat) :=
  if step =? 0 then raise ValueError else ret (range start stop step).

(** [tl.arange(lo, hi)]: the size must be a power of two. *)
Definition tl_arange (lo hi : nat) : M E (list nat) :=
  if is_pow2 (hi - lo) then ret (seq lo (hi - lo)) else raise ValueError.

(** [tl.zeros([n], dtype = tl.float32)]: the shape must be a power of
    two. *)
Definition tl_zeros (zero : F) (n : nat) : M E (list F) :=
  if is_pow2 n then ret (repeat zero n) else raise ValueError.

(** [tl.sum(v, axis = 0)]: the block reduced with the addition. *)
Definition tl_sum (zero : F) (add : F -> F -> F) (v : list F) : F :=
  fold_left add v zero.

(** Elementwise binary operation on two blocks of the same shape. *)
Fixpoint block2 (op : F -> F -> F) (u v : list F) : list F :=
  match u, v with
  | a :: u', b :: v' => op a b :: block2 op u' v'
  | _, _ => []
  end.

(** A call [tl.where(c, x, name = v, ...)] with two positional arguments
    and the keyword arguments [kw].  The parameters of [tl.where] are
    [condition], [x] and [y]: Python binds a keyword argument to the
    parameter of that name and raises TypeError when no parameter has this
    name or when [y] is left unbound.  The condition [c] is a scalar,
    broadcast to the shape of [x]. *)
Definition tl_where (c : bool) (x : list F) (kw : list (string * F))
  : M E (list F) :=
  match kw with
  | [(name, y)] =>
      if String.eqb name "y"
      then ret (map (fun xi => if c then xi else y) x)
      else raise TypeError
  | _ => raise TypeError
  end.

(** [tl.load(ptrs, mask = mask, other = other)]: an active lane reads its
    element; an inactive lane touches no memory and yields [other]. *)
Fixpoint tl_load (ptrs : list ptr) (mask : list bool) (other : E)
  : M E (list E) :=
  match ptrs, mask with
  | p :: ps, b :: bs =>
      (v <- (if b then load1 p else ret other) ;;
       vs <- tl_load ps bs other ;;
       ret (v :: vs))%kernel
  | _, _ => ret []
  end.

(** [tl.store(ptr, value)] of a scalar: the value is cast to the element
    type of the tensor written. *)
Definition tl_store1 (cast : buffer -> F -> E) (p : ptr) (v : F)
  : M E unit :=
  store1 p (cast (fst p) v).

(** [tl.store(ptrs, vals, mask = mask)]: only active lanes write. *)
Fixpoint tl_store (cast : buffer -> F -> E) (ptrs : list ptr)
    (vals : list F) (mask : list bool) : M E unit :=
  match ptrs, vals, mask with
  | p :: ps, v :: vs, b :: bs =>
      ((if b then tl_store1 cast p v else ret tt) ;;;
       tl_store cast ps vs bs)%kernel
  | _, _, _ => ret tt
  end.

(** [for x in xs: acc = body(x, acc)] with a loop-carried value. *)
Fixpoint for_each {A T : Type} (xs : list A) (body : A -> T -> M E T)
    (acc : T) : M E T :=
  match xs with
  | [] => ret acc
  | x :: xs' => (acc' <- body x acc ;; for_each xs' body acc')%kernel
  end.

End Triton.

(** ** The kernel *)

Section Kernel.

Context {E F : Type}.
Variable A : arith E F.

Local Open Scope kernel_scope.

(** [off < N] *)
Definition lt_mask (off : list nat) (N : nat) : list bool :=
  map (fun o => o <? N) off.

(** [off = col + tl.arange(0, BLOCK_SIZE)] *)
Definition offsets (col BLOCK_SIZE : nat) : M E (list nat) :=
  ar <- tl_arange 0 BLOCK_SIZE ;;
  ret (map (fun i => col + i) ar).

(** Lines 27-31: the mean pass, returning the block of running sums
    [_mean]. *)
Definition mean_loop (X : ptr) (N BLOCK_SIZE : nat) : M E (list F) :=
  _mean <- tl_zeros (fzero A) BLOCK_SIZE ;;
  cols <- py_range 0 N BLOCK_SIZE ;;
  for_each cols
    (fun col _mean =>
       off <- offsets col BLOCK_SIZE ;;
       a <- tl_load (ptr_add_block X off) (lt_mask off N) (s_zero A) ;;
       let a := map (to_f32 A) a in
       ret (block2 (fadd A) _mean a))
    _mean.

(** Lines 26-32. *)
Definition compute_mean (X : ptr) (N BLOCK_SIZE : nat) : M E F :=
  (* mean = 0 : dead initialiser, overwritten below *)
  _mean <- mean_loop X N BLOCK_SIZE ;;
  ret (fdiv A (tl_sum (fzero A) (fadd A) _mean) (of_int A N)).

(** Lines 36-39: one iteration of the variance loop, the block [x * x]
    it adds to [_var].  Line 38 calls [tl.where] with the condition
    [col < N] of the loop variable, with [x - mean], and with the keyword
    argument [others = 0.]. *)
Definition var_chunk (X : ptr) (N BLOCK_SIZE : nat) (mean : F) (col : nat)
  : M E (list F) :=
  off <- offsets col BLOCK_SIZE ;;
  x <- tl_load (ptr_add_block X off) (lt_mask off N) (s_zero A) ;;
  let x := map (to_f32 A) x in
  x <- tl_where (col <? N) (map (fun xi => fsub A xi mean) x)
         [("others"%string, fzero A)] ;;
  ret (block2 (fmul A) x x).

(** Lines 34-39: the variance pass, returning the block [_var]. *)
Definition var_loop (X : ptr) (N BLOCK_SIZE : nat) (mean : F)
  : M E (list F) :=
  _var <- tl_zeros (fzero A) BLOCK_SIZE ;;
  cols <- py_range 0 N BLOCK_SIZE ;;
  for_each cols
    (fun col _var =>
       xx <- var_chunk X N BLOCK_SIZE mean col ;;
       ret (block2 (fadd A) _var xx))
    _var.

(** Lines 34-40. *)
Definition compute_var (X : ptr) (N BLOCK_SIZE : nat) (mean : F) : M E F :=
  _var <- var_loop X N BLOCK_SIZE mean ;;
  ret (fdiv A (tl_sum (fzero A) (fadd A) _var) (of_int A N)).

(** Line 52 on one lane: [x], [mean], [rstd] are float32, [w] and [b] are
    as loaded and promoted by the operation they enter. *)
Definition affine (mean rstd x : F) (w b : E) : F :=
  fadd A (fmul A (fmul A (fsub A x mean) rstd) (promote A w)) (promote A b).

Fixpoint block_affine (mean rstd : F) (x : list F) (w b : list E)
  : list F :=
  match x, w, b with
  | xi :: x', wi :: w', bi :: b' =>
      affine mean rstd xi wi bi :: block_affine mean rstd x' w' b'
  | _, _, _ => []
  end.

(** Lines 46-53: the normalise and affine pass. *)
Definition normalize (X Y W B : ptr) (N BLOCK_SIZE : nat) (mean rstd : F)
  : M E unit :=
  cols <- py_range 0 N BLOCK_SIZE ;;
  for_each cols
    (fun col (_ : unit) =>
       off <- offsets col BLOCK_SIZE ;;
       let mask := lt_mask off N in
       w <- tl_load (ptr_add_block W off) mask (undef A) ;;
       b <- tl_load (ptr_add_block B off) mask (undef A) ;;
       x <- tl_load (ptr_add_block X off) mask (s_zero A) ;;
       let x := map (to_f32 A) x in
       let y := block_affine mean rstd x w b in
       tl_store (cast_to A) (ptr_add_block Y off) y mask)
    tt.

(** The kernel, for the program instance [pid] ([tl.program_id(0)]). *)
Definition _layer_norm_fwd_fused
    (X Y W B : ptr) (stride : nat) (Mean Rstd : ptr) (N : nat) (eps : F)
    (BLOCK_SIZE : nat) (pid : nat) : M E unit :=
  let row := pid in
  let X := ptr_add X (row * stride) in
  let Y := ptr_add Y (row * stride) in
  mean <- compute_mean X N BLOCK_SIZE ;;
  var <- compute_var X N BLOCK_SIZE mean ;;
  let rstd := fdiv A (of_int A 1) (fsqrt A (fadd A var eps)) in
  tl_store1 (cast_to A) (ptr_add Mean row) mean ;;;
  tl_store1 (cast_to A) (ptr_add Rstd row) rstd ;;;
  normalize X Y W B N BLOCK_SIZE mean rstd.

End Kernel.

(** ** One program instance on the launcher's tensors *)

(** Run a kernel body on memory [m] with an empty trace: the final memory
    and the accesses made, in program order. *)
Definition exec {E A : Type} (c : M E A) (m : memory E)
  : memory E * list event :=
  let (_, s) := c (mkState m []) in (mem s, trace s).

(** How a kernel body ends on memory [m]. *)
Definition result {E A : Type} (c : M E A) (m : memory E) : outcome A :=
  fst (c (mkState m [])).

Section Launch.

Context {E F : Type}.
Variable A : arith E F.

(** The program instance of row [row]: the six tensors are separate
    allocations, each passed by its base pointer. *)
Definition row_instance (stride N : nat) (eps : F) (BLOCK_SIZE row : nat)
  : M E unit :=
  _layer_norm_fwd_fused A (BufX, 0) (BufY, 0) (BufW, 0) (BufB, 0) stride
    (BufMean, 0) (BufRstd, 0) N eps BLOCK_SIZE row.

Definition run_row (stride N : nat) (eps : F) (BLOCK_SIZE row : nat)
    (m : memory E) : memory E * list event :=
  exec (row_instance stride N eps BLOCK_SIZE row) m.

(** Whether the program instance completes or raises. *)
Definition run_row_outcome (stride N : nat) (eps : F) (BLOCK_SIZE row : nat)
    (m : memory E) : outcome unit :=
  result (row_instance stride N eps BLOCK_SIZE row) m.


End Launch.

(** Element [i] of a row-major matrix lies in columns [0 .. N-1] of row
    [row]. *)
Definition in_row (stride N row i : nat) : bool :=
  (row * stride <=? i) && (i <? row * stride + N).

(** The accesses the row's program instance is entitled to: reads of the
    row's [N] columns of [X] and of the first [N] elements of [W] and [B];
    writes of the row's [N] columns of [Y], of [Mean[row]] and of
    [Rstd[row]]. *)
Definition access_ok (stride N row : nat) (e : event) : bool :=
  match e with
  | EvLoad (BufX, i) => in_row stride N row i
  | EvLoad (BufW, i) | EvLoad (BufB, i) => i <? N
  | EvStore (BufY, i) => in_row stride N row i
  | EvStore (BufMean, i) | EvStore (BufRstd, i) => i =? row
  | _ => false
  end.

(** The locations the row's program instance may write. *)
Definition output_loc (stride N row : nat) (p : ptr) : bool :=
  match p with
  | (BufY, i) => in_row stride N row i
  | (BufMean, i) | (BufRstd, i) => i =? row
  | _ => false
  end.


(** ** What the passes read and compute, in closed form

    The functions below describe values and traces that the monadic code
    produces; the run lemmas further down prove that they are what the code
    computes. *)

(** The offsets of the chunk at [col]. *)
Definition chunk_offsets (col BLOCK_SIZE : nat) : list nat :=
  map (fun i => col + i) (seq 0 (BLOCK_SIZE - 0)).

(** The block a masked load returns from memory [m]. *)
Fixpoint loaded {E : Type} (m : memory E) (ptrs : list ptr)
    (mask : list bool) (other : E) : list E :=
  match ptrs, mask with
  | p :: ps, b :: bs =>
      (if b then m p else other) :: loaded m ps bs other
  | _, _ => []
  end.

(** The elements a masked load reads. *)
Fixpoint load_events (ptrs : list ptr) (mask : list bool) : list event :=
  match ptrs, mask with
  | p :: ps, b :: bs =>
      (if b then [EvLoad p] else []) ++ load_events ps bs
  | _, _ => []
  end.

(** The reads of the chunk at [col]. *)
Definition chunk_loads (P : ptr) (N BLOCK_SIZE col : nat) : list event :=
  let off := chunk_offsets col BLOCK_SIZE in
  load_events (ptr_add_block P off) (lt_mask off N).

(** The reads of a whole sweep over the row. *)
Definition pass_loads (X : ptr) (N BLOCK_SIZE : nat) : list event :=
  flat_map (chunk_loads X N BLOCK_SIZE) (range 0 N BLOCK_SIZE).

Section Views.

Context {E F : Type}.
Variable A : arith E F.

(** The chunk of the row at [col], upcast: inactive lanes hold the upcast
    of [other]. *)
Definition row_block (m : memory E) (X : ptr) (N BLOCK_SIZE col : nat)
  : list F :=
  let off := chunk_offsets col BLOCK_SIZE in
  map (to_f32 A)
    (loaded m (ptr_add_block X off) (lt_mask off N) (s_zero A)).

(** [_mean] after the mean loop. *)
Definition mean_block (m : memory E) (X : ptr) (N BLOCK_SIZE : nat)
  : list F :=
  fold_left
    (fun acc col => block2 (fadd A) acc (row_block m X N BLOCK_SIZE col))
    (range 0 N BLOCK_SIZE) (repeat (fzero A) BLOCK_SIZE).

(** [mean] *)
Definition mean_value (m : memory E) (X : ptr) (N BLOCK_SIZE : nat) : F :=
  fdiv A (tl_sum (fzero A) (fadd A) (mean_block m X N BLOCK_SIZE))
    (of_int A N).

(** Column [c] of the row as a masked load delivers it, upcast. *)
Definition lane_value (m : memory E) (X : ptr) (N c : nat) : F :=
  to_f32 A (if c <? N then m (ptr_add X c) else s_zero A).

(** Lane [i] of [_mean] after the chunks at [cols]: the float32 sum, in
    loop order, of the upcast elements of the columns [col + i]. *)
Definition mean_lane (m : memory E) (X : ptr) (N : nat) (cols : list nat)
    (i : nat) : F :=
  fold_left (fun acc col => fadd A acc (lane_value m X N (col + i)))
    cols (fzero A).

(** What the kernel stores for an empty row: the reduced all-zero block
    divided by [N = 0], and the reciprocal standard deviation made of it,
    each cast to the element type of its tensor. *)
Definition empty_quotient (BLOCK_SIZE : nat) : F :=
  fdiv A (tl_sum (fzero A) (fadd A) (repeat (fzero A) BLOCK_SIZE))
    (of_int A 0).

Definition empty_mean (BLOCK_SIZE : nat) : E :=
  cast_to A BufMean (empty_quotient BLOCK_SIZE).

Definition empty_rstd (eps : F) (BLOCK_SIZE : nat) : E :=
  cast_to A BufRstd
    (fdiv A (of_int A 1)
       (fsqrt A (fadd A (empty_quotient BLOCK_SIZE) eps))).

End Views.

(** The program instance completes only for an empty row and a
    power-of-two block size; only then does it write. *)
Definition completes (N BLOCK_SIZE : nat) : bool :=
  is_pow2 BLOCK_SIZE && (N =? 0).

(** ** Exact arithmetic: the kernel over the reals

    The device code computes in float32.  Statements "up to floating-point
    tolerance" are read over the reals, where every operation is exact and
    every cast is the identity. *)

Definition R_arith (undef : R) : arith R R :=
  mkArith R R Rplus Rminus Rmult Rdiv sqrt INR
    (fun x => x) (fun x => x) (fun _ x => x) 0%R undef.

Definition R_run_row (undef : R) (stride N : nat) (eps : R)
    (BLOCK_SIZE row : nat) (m : memory R) : memory R * list event :=
  run_row (R_arith undef) stride N eps BLOCK_SIZE row m.

Definition R_run_row_outcome (undef : R) (stride N : nat) (eps : R)
    (BLOCK_SIZE row : nat) (m : memory R) : outcome unit :=
  run_row_outcome (R_arith undef) stride N eps BLOCK_SIZE row m.

(** [_mean] and [mean] of the mean pass. *)
Definition R_mean_loop (X : ptr) (N BLOCK_SIZE : nat) : M R (list R) :=
  mean_loop (R_arith 0%R) X N BLOCK_SIZE.

Definition R_compute_mean (X : ptr) (N BLOCK_SIZE : nat) : M R R :=
  compute_mean (R_arith 0%R) X N BLOCK_SIZE.

(** One iteration and [var] of the variance pass. *)
Definition R_var_chunk (X : ptr) (N BLOCK_SIZE : nat) (mean : R) (col : nat)
  : M R (list R) :=
  var_chunk (R_arith 0%R) X N BLOCK_SIZE mean col.

Definition R_compute_var (X : ptr) (N BLOCK_SIZE : nat) (mean : R) : M R R :=
  compute_var (R_arith 0%R) X N BLOCK_SIZE mean.

(** *** The statistics the specification names *)

Definition Rsum (xs : list R) : R := fold_right Rplus 0%R xs.

(** The [N] elements of row [row] of [X]. *)
Definition row_elements (m : memory R) (stride N row : nat) : list R :=
  map (fun c => m (BufX, row * stride + c)) (seq 0 N).

Definition arithmetic_mean (xs : list R) : R :=
  (Rsum xs / INR (length xs))%R.

(** Population variance: squared deviations from the mean, divided by the
    number of elements (no Bessel correction). *)
Definition population_variance (xs : list R) : R :=
  (Rsum (map (fun x => (x - arithmetic_mean xs) * (x - arithmetic_mean xs))
           xs)
   / INR (length xs))%R.

(** Memory holding the row-major matrix [X] and the vectors [W], [B];
    every element of the output tensors holds [stale]. *)
Definition tensors (X W B : list R) (stale : R) : memory R :=
  fun p =>
    match p with
    | (BufX, i) => nth i X 0%R
    | (BufW, i) => nth i W 0%R
    | (BufB, i) => nth i B 0%R
    | _ => stale
    end.

(** *** The scenarios of the specification *)

(** [eps = 1e-5] *)
Definition eps_1e5 : R := (1 / 100000)%R.

(** N = 4, block size 4: [X = [1,2,3,4]], [W = 1], [B = 0]; the output
    tensors start zeroed. *)
Definition scenario_4 : memory R :=
  tensors [1; 2; 3; 4]%R [1; 1; 1; 1]%R [0; 0; 0; 0]%R 0%R.

(** N = 5, block size 4: two chunks, the second with one valid and three
    masked lanes; the output tensors start zeroed. *)
Definition scenario_5 : memory R :=
  tensors [1; 2; 3; 4; 5]%R [1; 1; 1; 1; 1]%R [0; 0; 0; 0; 0]%R 0%R.

(** The same inputs over output tensors that hold stale values. *)
Definition scenario_5_stale : memory R :=
  tensors [1; 2; 3; 4; 5]%R [1; 1; 1; 1; 1]%R [0; 0; 0; 0; 0]%R 7%R.

(** ** Running the kernel on rationals

    Stored elements are integers (a coarse storage format), float32 values
    are rationals: the upcast injects, the cast of a store rounds down.
    The square root is the integer square root of the floor. *)

Definition Q_arith : arith Z Q :=
  mkArith Z Q Qplus Qminus Qmult Qdiv
    (fun q => inject_Z (Z.sqrt (Qfloor q)))
    (fun n => inject_Z (Z.of_nat n))
    inject_Z inject_Z (fun _ q => Qfloor q) 0%Z 0%Z.

Definition Z_tensors (X : list Z) : memory Z :=
  fun p => match p with (BufX, i) => nth i X 0%Z | _ => 0%Z end.

(** ** Permitted accesses *)

(** A computation is sound for a set of permitted accesses when every run,
    whether it returns or raises, only extends the trace, extends it with
    permitted accesses, and changes memory at most where the extension has
    a store. *)
Definition sound {E A : Type} (ok : event -> Prop) (c : M E A) : Prop :=
  forall s,
  exists evs,
    trace (snd (c s)) = trace s ++ evs
    /\ (forall e, In e evs -> ok e)
    /\ (forall p, ~ In (EvStore p) evs -> mem (snd (c s)) p = mem s p).

(** The accesses of the kernel through the pointers it is given ([X] and
    [Y] already advanced to the row): columns below [N], and the two
    statistics of the row. *)
Definition row_access (X Y W B Mean Rstd : ptr) (N row : nat) (e : event)
  : Prop :=
  (exists c, c < N /\
     (e = EvLoad (ptr_add X c) \/ e = EvLoad (ptr_add W c) \/
      e = EvLoad (ptr_add B c) \/ e = EvStore (ptr_add Y c)))
  \/ e = EvStore (ptr_add Mean row) \/ e = EvStore (ptr_add Rstd row).

(** * Properties *)

(** ** Pointers, memory updates, block sizes and loop bounds *)

Lemma buffer_eqb_eq (a b : buffer) : buffer_eqb a b = true <-> a = b.
Proof. destruct a, b; simpl; split; intro H; try reflexivity; discriminate. Qed.

Lemma ptr_eqb_eq (p q : ptr) : ptr_eqb p q = true <-> p = q.
Proof.
  destruct p as [a i], q as [b j]; unfold ptr_eqb; simpl.
  rewrite andb_true_iff, buffer_eqb_eq, Nat.eqb_eq.
  split; [intros [-> ->]; reflexivity | intros H; inversion H; auto].
Qed.


Lemma ptr_eqb_neq (p q : ptr) : p <> q -> ptr_eqb p q = false.
Proof.
  intro H; destruct (ptr_eqb p q) eqn:Heq; [|reflexivity].
  apply ptr_eqb_eq in Heq; contradiction.
Qed.


Lemma upd_other {E : Type} (m : memory E) p v q :
  p <> q -> upd m p v q = m q.
Proof. intro H; unfold upd; rewrite ptr_eqb_neq by exact H; reflexivity. Qed.

Lemma in_row_iff (stride N row i : nat) :
  in_row stride N row i = true <-> exists c, c < N /\ i = row * stride + c.
Proof.
  unfold in_row; rewrite andb_true_iff, Nat.leb_le, Nat.ltb_lt; split.
  - intros [H1 H2]; exists (i - row * stride); lia.
  - intros [c [Hc ->]]; lia.
Qed.

Lemma is_pow2_pos (n : nat) : is_pow2 n = true -> 0 < n.
Proof.
  unfold is_pow2; intros H; apply Nat.eqb_eq in H.
  destruct n; [simpl in H; discriminate | lia].
Qed.

Lemma is_pow2_step (n : nat) : is_pow2 n = true -> (n =? 0) = false.
Proof.
  intros H; apply is_pow2_pos in H; apply Nat.eqb_neq; lia.
Qed.

(** A non-empty row has a first chunk, at column 0. *)
Lemma range_head (N BLOCK_SIZE : nat) :
  1 <= N ->
  range 0 N BLOCK_SIZE
  = 0 :: range_from (N - 1) (0 + BLOCK_SIZE) N BLOCK_SIZE.
Proof.
  intros HN; unfold range; rewrite Nat.sub_0_r.
  destruct N as [|n]; [lia|].
  simpl; rewrite Nat.sub_0_r; reflexivity.
Qed.

Lemma range_empty (BLOCK_SIZE : nat) : range 0 0 BLOCK_SIZE = [].
Proof. reflexivity. Qed.

(** ** Soundness of the monadic code for a set of permitted accesses *)

Section Soundness.

Context {E : Type}.
Variable ok : event -> Prop.

Lemma sound_ret {A : Type} (a : A) : sound ok (@ret E A a).
Proof.
  intros s; exists []; simpl; rewrite app_nil_r.
  split; [reflexivity | split; [intros e [] | reflexivity]].
Qed.

Lemma sound_raise {A : Type} (e : exn) : sound ok (@raise E A e).
Proof.
  intros s; exists []; simpl; rewrite app_nil_r.
  split; [reflexivity | split; [intros e' [] | reflexivity]].
Qed.

Lemma sound_bind {A B : Type} (m : M E A) (k : A -> M E B) :
  sound ok m -> (forall a, sound ok (k a)) -> sound ok (bind m k).
Proof.
  intros Hm Hk s; unfold bind.
  destruct (Hm s) as [ev1 [T1 [O1 F1]]].
  destruct (m s) as [[a | e] s1]; simpl in *.
  - destruct (Hk a s1) as [ev2 [T2 [O2 F2]]].
    exists (ev1 ++ ev2); split; [|split].
    + rewrite T2, T1, app_assoc; reflexivity.
    + intros e He; apply in_app_iff in He; destruct He; auto.
    + intros p Hp; rewrite F2, F1; [reflexivity | |];
        intros Hin; apply Hp; apply in_app_iff; auto.
  - exists ev1; auto.
Qed.

Lemma sound_load1 (p : ptr) : ok (EvLoad p) -> sound ok (@load1 E p).
Proof.
  intros H s; exists [EvLoad p]; simpl.
  split; [reflexivity | split; [|reflexivity]].
  intros e [<- | []]; exact H.
Qed.

Lemma sound_store1 (p : ptr) (v : E) :
  ok (EvStore p) -> sound ok (store1 p v).
Proof.
  intros H s; exists [EvStore p]; simpl.
  split; [reflexivity | split].
  - intros e [<- | []]; exact H.
  - intros q Hq; apply upd_other; intros ->; apply Hq; left; reflexivity.
Qed.

Lemma sound_tl_load (P : ptr) (N : nat) (other : E) :
  (forall c, c < N -> ok (EvLoad (ptr_add P c))) ->
  forall offs,
    sound ok (tl_load (ptr_add_block P offs) (lt_mask offs N) other).
Proof.
  intros H; induction offs as [|o offs IH]; simpl; [apply sound_ret|].
  apply sound_bind.
  - destruct (Nat.ltb_spec o N);
      [apply sound_load1, H; assumption | apply sound_ret].
  - intros v; apply sound_bind; [exact IH | intros vs; apply sound_ret].
Qed.

Lemma sound_tl_store {F : Type} (cast : buffer -> F -> E) (P : ptr)
    (N : nat) :
  (forall c, c < N -> ok (EvStore (ptr_add P c))) ->
  forall offs vals,
    sound ok (tl_store cast (ptr_add_block P offs) vals (lt_mask offs N)).
Proof.
  intros H; induction offs as [|o offs IH]; intros [|v vals]; simpl;
    try apply sound_ret.
  apply sound_bind; [|intros _; apply IH].
  destruct (Nat.ltb_spec o N); [|apply sound_ret].
  unfold tl_store1; apply sound_store1, H; assumption.
Qed.

Lemma sound_for_each {A T : Type} (body : A -> T -> M E T) :
  (forall x acc, sound ok (body x acc)) ->
  forall xs acc, sound ok (for_each xs body acc).
Proof.
  intros H; induction xs as [|x xs IH]; intros acc; simpl.
  - apply sound_ret.
  - apply sound_bind; [apply H | intros acc'; apply IH].
Qed.

Lemma sound_py_range (start stop step : nat) :
  sound ok (@py_range E start stop step).
Proof.
  unfold py_range; destruct (step =? 0); [apply sound_raise | apply sound_ret].
Qed.

Lemma sound_tl_arange (lo hi : nat) : sound ok (@tl_arange E lo hi).
Proof.
  unfold tl_arange; destruct (is_pow2 (hi - lo));
    [apply sound_ret | apply sound_raise].
Qed.

Lemma sound_tl_zeros {F : Type} (zero : F) (n : nat) :
  sound ok (@tl_zeros E F zero n).
Proof.
  unfold tl_zeros; destruct (is_pow2 n); [apply sound_ret | apply sound_raise].
Qed.

Lemma sound_tl_where {F : Type} (c : bool) (x : list F)
    (kw : list (string * F)) :
  sound ok (@tl_where E F c x kw).
Proof.
  unfold tl_where; destruct kw as [|[name y] [|? ?]];
    try apply sound_raise.
  destruct (String.eqb name "y"); [apply sound_ret | apply sound_raise].
Qed.

Lemma sound_offsets (col BLOCK_SIZE : nat) :
  sound ok (@offsets E col BLOCK_SIZE).
Proof.
  unfold offsets; apply sound_bind;
    [apply sound_tl_arange | intros ar; apply sound_ret].
Qed.

End Soundness.

Section KernelSound.

Context {E F : Type}.
Variable A : arith E F.
Variables (X Y W B Mean Rstd : ptr) (N row : nat).

Local Abbreviation ok := (row_access X Y W B Mean Rstd N row).

Lemma ok_load_X (c : nat) : c < N -> ok (EvLoad (ptr_add X c)).
Proof. intros Hc; left; exists c; auto. Qed.

Lemma ok_load_W (c : nat) : c < N -> ok (EvLoad (ptr_add W c)).
Proof. intros Hc; left; exists c; auto. Qed.

Lemma ok_load_B (c : nat) : c < N -> ok (EvLoad (ptr_add B c)).
Proof. intros Hc; left; exists c; auto 6. Qed.

Lemma ok_store_Y (c : nat) : c < N -> ok (EvStore (ptr_add Y c)).
Proof. intros Hc; left; exists c; auto 6. Qed.

Lemma sound_mean_loop (BLOCK_SIZE : nat) :
  sound ok (mean_loop A X N BLOCK_SIZE).
Proof.
  unfold mean_loop.
  apply sound_bind; [apply sound_tl_zeros | intros _mean].
  apply sound_bind; [apply sound_py_range | intros cols].
  apply sound_for_each; intros col acc.
  apply sound_bind; [apply sound_offsets | intros off].
  apply sound_bind; [apply sound_tl_load, ok_load_X | intros a].
  apply sound_ret.
Qed.

Lemma sound_compute_mean (BLOCK_SIZE : nat) :
  sound ok (compute_mean A X N BLOCK_SIZE).
Proof.
  unfold compute_mean.
  apply sound_bind; [apply sound_mean_loop | intros _mean; apply sound_ret].
Qed.

Lemma sound_var_chunk (BLOCK_SIZE : nat) (mean : F) (col : nat) :
  sound ok (var_chunk A X N BLOCK_SIZE mean col).
Proof.
  unfold var_chunk.
  apply sound_bind; [apply sound_offsets | intros off].
  apply sound_bind; [apply sound_tl_load, ok_load_X | intros x].
  apply sound_bind; [apply sound_tl_where | intros x'; apply sound_ret].
Qed.

Lemma sound_compute_var (BLOCK_SIZE : nat) (mean : F) :
  sound ok (compute_var A X N BLOCK_SIZE mean).
Proof.
  unfold compute_var, var_loop.
  apply sound_bind; [|intros _var; apply sound_ret].
  apply sound_bind; [apply sound_tl_zeros | intros _var].
  apply sound_bind; [apply sound_py_range | intros cols].
  apply sound_for_each; intros col acc.
  apply sound_bind; [apply sound_var_chunk | intros xx; apply sound_ret].
Qed.

Lemma sound_normalize (BLOCK_SIZE : nat) (mean rstd : F) :
  sound ok (normalize A X Y W B N BLOCK_SIZE mean rstd).
Proof.
  unfold normalize.
  apply sound_bind; [apply sound_py_range | intros cols].
  apply sound_for_each; intros col [].
  apply sound_bind; [apply sound_offsets | intros off].
  apply sound_bind; [apply sound_tl_load, ok_load_W | intros w].
  apply sound_bind; [apply sound_tl_load, ok_load_B | intros b].
  apply sound_bind; [apply sound_tl_load, ok_load_X | intros x].
  apply sound_tl_store, ok_store_Y.
Qed.

End KernelSound.

(** The kernel only makes the accesses of its row, and changes memory at
    most where it stored. *)
Lemma sound_kernel {E F : Type} (A : arith E F)
    (X Y W B : ptr) (stride : nat) (Mean Rstd : ptr) (N : nat) (eps : F)
    (BLOCK_SIZE pid : nat) :
  sound
    (row_access (ptr_add X (pid * stride)) (ptr_add Y (pid * stride))
       W B Mean Rstd N pid)
    (_layer_norm_fwd_fused A X Y W B stride Mean Rstd N eps BLOCK_SIZE pid).
Proof.
  unfold _layer_norm_fwd_fused.
  apply sound_bind; [apply sound_compute_mean | intros mean].
  apply sound_bind; [apply sound_compute_var | intros var].
  apply sound_bind;
    [unfold tl_store1; apply sound_store1; right; left; reflexivity
    | intros _].
  apply sound_bind;
    [unfold tl_store1; apply sound_store1; right; right; reflexivity
    | intros _].
  apply sound_normalize.
Qed.

(** ** The row's program instance: accesses and frame *)

Section RowAccesses.

Context {E F : Type}.
Variable A : arith E F.
Variables (stride N : nat) (eps : F) (BLOCK_SIZE row : nat).
Variable m : memory E.

Lemma run_row_sound :
  (forall e, In e (snd (run_row A stride N eps BLOCK_SIZE row m)) ->
     row_access (ptr_add (BufX, 0) (row * stride))
       (ptr_add (BufY, 0) (row * stride))
       (BufW, 0) (BufB, 0) (BufMean, 0) (BufRstd, 0) N row e)
  /\ (forall p,
        ~ In (EvStore p) (snd (run_row A stride N eps BLOCK_SIZE row m)) ->
        fst (run_row A stride N eps BLOCK_SIZE row m) p = m p).
Proof.
  unfold run_row, exec, row_instance.
  destruct (sound_kernel A (BufX, 0) (BufY, 0) (BufW, 0) (BufB, 0) stride
              (BufMean, 0) (BufRstd, 0) N eps BLOCK_SIZE row (mkState m []))
    as [evs [T [O Fr]]].
  destruct (_layer_norm_fwd_fused A (BufX, 0) (BufY, 0) (BufW, 0) (BufB, 0)
              stride (BufMean, 0) (BufRstd, 0) N eps BLOCK_SIZE row
              (mkState m [])) as [r s].
  simpl in *; subst evs; split; [exact O | exact Fr].
Qed.

(** Every access of the run, by tensor. *)
Lemma run_row_events (e : event) :
  In e (snd (run_row A stride N eps BLOCK_SIZE row m)) ->
  (exists c, c < N /\
     (e = EvLoad (BufX, row * stride + c) \/ e = EvLoad (BufW, c) \/
      e = EvLoad (BufB, c) \/ e = EvStore (BufY, row * stride + c)))
  \/ e = EvStore (BufMean, row) \/ e = EvStore (BufRstd, row).
Proof.
  intros H; apply (proj1 run_row_sound) in H; exact H.
Qed.

Lemma run_row_access_ok (e : event) :
  In e (snd (run_row A stride N eps BLOCK_SIZE row m)) ->
  access_ok stride N row e = true.
Proof.
  intros H; apply run_row_events in H.
  destruct H as [[c [Hc [-> | [-> | [-> | ->]]]]] | [-> | ->]]; simpl;
    try (apply in_row_iff; exists c; auto);
    try (apply Nat.ltb_lt; exact Hc);
    apply Nat.eqb_refl.
Qed.

(** Memory outside the row's outputs is left as it was. *)
Lemma run_row_frame (p : ptr) :
  output_loc stride N row p = false ->
  fst (run_row A stride N eps BLOCK_SIZE row m) p = m p.
Proof.
  intros Hp; apply (proj2 run_row_sound).
  intros Hin; apply run_row_access_ok in Hin.
  destruct p as [[] i]; simpl in *; congruence.
Qed.

End RowAccesses.

(** ** Run lemmas: how the code ends and what it leaves *)

Section Runs.

Context {E F : Type}.

Lemma tl_load_run (other : E) (ptrs : list ptr) :
  forall mask m t,
    tl_load ptrs mask other (mkState m t)
    = (Ok (loaded m ptrs mask other),
       mkState m (t ++ load_events ptrs mask)).
Proof.
  induction ptrs as [|p ps IH]; intros [|b bs] m t; simpl;
    try (unfold ret; rewrite app_nil_r; reflexivity).
  unfold bind at 1.
  destruct b; simpl; unfold bind; rewrite IH; unfold ret;
    rewrite <- ?app_assoc; reflexivity.
Qed.

Lemma offsets_run (col BLOCK_SIZE : nat) (s : state E) :
  is_pow2 BLOCK_SIZE = true ->
  offsets col BLOCK_SIZE s = (Ok (chunk_offsets col BLOCK_SIZE), s).
Proof.
  intros H; unfold offsets, tl_arange, bind, chunk_offsets.
  rewrite Nat.sub_0_r, H; reflexivity.
Qed.

Lemma py_range_run (N BLOCK_SIZE : nat) (s : state E) :
  is_pow2 BLOCK_SIZE = true ->
  py_range 0 N BLOCK_SIZE s = (Ok (range 0 N BLOCK_SIZE), s).
Proof.
  intros H; unfold py_range; rewrite (is_pow2_step _ H); reflexivity.
Qed.

(** A loop whose body only reads memory and returns. *)
Lemma for_each_reads {A T : Type} (body : A -> T -> M E T)
    (val : memory E -> A -> T -> T) (ev : A -> list event) :
  (forall x acc m t,
      body x acc (mkState m t) = (Ok (val m x acc), mkState m (t ++ ev x))) ->
  forall xs acc m t,
    for_each xs body acc (mkState m t)
    = (Ok (fold_left (fun a x => val m x a) xs acc),
       mkState m (t ++ flat_map ev xs)).
Proof.
  intros Hbody; induction xs as [|x xs IH]; intros acc m t; simpl.
  - unfold ret; rewrite app_nil_r; reflexivity.
  - unfold bind; rewrite Hbody, IH, <- app_assoc; reflexivity.
Qed.

Variable A : arith E F.

Lemma mean_loop_run (X : ptr) (N BLOCK_SIZE : nat) m t :
  is_pow2 BLOCK_SIZE = true ->
  mean_loop A X N BLOCK_SIZE (mkState m t)
  = (Ok (mean_block A m X N BLOCK_SIZE),
     mkState m (t ++ pass_loads X N BLOCK_SIZE)).
Proof.
  intros HB; unfold mean_loop, mean_block, pass_loads.
  unfold bind at 1, tl_zeros; rewrite HB; unfold ret at 1.
  unfold bind at 1; rewrite py_range_run by exact HB.
  apply for_each_reads with
    (val := fun m col acc =>
              block2 (fadd A) acc (row_block A m X N BLOCK_SIZE col)).
  intros col acc m' t'; unfold bind.
  rewrite offsets_run by exact HB.
  rewrite tl_load_run; reflexivity.
Qed.

Lemma mean_loop_raises (X : ptr) (N BLOCK_SIZE : nat) (s : state E) :
  is_pow2 BLOCK_SIZE = false ->
  mean_loop A X N BLOCK_SIZE s = (Raise ValueError, s).
Proof.
  intros HB; unfold mean_loop, bind, tl_zeros; rewrite HB; reflexivity.
Qed.

Lemma compute_mean_run (X : ptr) (N BLOCK_SIZE : nat) m t :
  is_pow2 BLOCK_SIZE = true ->
  compute_mean A X N BLOCK_SIZE (mkState m t)
  = (Ok (mean_value A m X N BLOCK_SIZE),
     mkState m (t ++ pass_loads X N BLOCK_SIZE)).
Proof.
  intros HB; unfold compute_mean, bind.
  rewrite mean_loop_run by exact HB; reflexivity.
Qed.

(** An iteration of the variance loop loads its chunk and then raises at
    line 38: [tl.where] has no parameter [others]. *)
Lemma var_chunk_run (X : ptr) (N BLOCK_SIZE : nat) (mean : F) col m t :
  is_pow2 BLOCK_SIZE = true ->
  var_chunk A X N BLOCK_SIZE mean col (mkState m t)
  = (Raise TypeError, mkState m (t ++ chunk_loads X N BLOCK_SIZE col)).
Proof.
  intros HB; unfold var_chunk, bind.
  rewrite offsets_run by exact HB.
  rewrite tl_load_run; reflexivity.
Qed.

(** The variance pass of a non-empty row raises in its first iteration. *)
Lemma compute_var_run (X : ptr) (N BLOCK_SIZE : nat) (mean : F) m t :
  is_pow2 BLOCK_SIZE = true -> 1 <= N ->
  compute_var A X N BLOCK_SIZE mean (mkState m t)
  = (Raise TypeError, mkState m (t ++ chunk_loads X N BLOCK_SIZE 0)).
Proof.
  intros HB HN; unfold compute_var, var_loop.
  unfold bind at 1. unfold bind at 1, tl_zeros; rewrite HB; unfold ret at 1.
  unfold bind at 1; rewrite py_range_run by exact HB.
  rewrite range_head by exact HN; cbn [for_each].
  unfold bind at 1. unfold bind at 1.
  rewrite var_chunk_run by exact HB; reflexivity.
Qed.

Lemma compute_var_empty (X : ptr) (BLOCK_SIZE : nat) (mean : F)
    (s : state E) :
  is_pow2 BLOCK_SIZE = true ->
  compute_var A X 0 BLOCK_SIZE mean s
  = (Ok (empty_quotient A BLOCK_SIZE), s).
Proof.
  intros HB; unfold compute_var, var_loop.
  unfold bind at 1. unfold bind at 1, tl_zeros; rewrite HB; unfold ret at 1.
  unfold bind at 1; rewrite py_range_run by exact HB.
  reflexivity.
Qed.

Lemma normalize_empty (X Y W B : ptr) (BLOCK_SIZE : nat) (mean rstd : F)
    (s : state E) :
  is_pow2 BLOCK_SIZE = true ->
  normalize A X Y W B 0 BLOCK_SIZE mean rstd s = (Ok tt, s).
Proof.
  intros HB; unfold normalize.
  unfold bind at 1; rewrite py_range_run by exact HB.
  reflexivity.
Qed.

Variables (X Y W B : ptr) (stride : nat) (Mean Rstd : ptr).
Variables (eps : F) (pid : nat).

(** A block size that is not a power of two: line 27 raises before any
    access. *)
Lemma kernel_run_bad_block (N BLOCK_SIZE : nat) (s : state E) :
  is_pow2 BLOCK_SIZE = false ->
  _layer_norm_fwd_fused A X Y W B stride Mean Rstd N eps BLOCK_SIZE pid s
  = (Raise ValueError, s).
Proof.
  intros HB; unfold _layer_norm_fwd_fused, compute_mean.
  unfold bind at 1. unfold bind at 1.
  rewrite mean_loop_raises by exact HB; reflexivity.
Qed.

(** A non-empty row: the mean pass completes, the first iteration of the
    variance pass loads its chunk and raises; no store is reached. *)
Lemma kernel_run_abort (N BLOCK_SIZE : nat) m t :
  is_pow2 BLOCK_SIZE = true -> 1 <= N ->
  _layer_norm_fwd_fused A X Y W B stride Mean Rstd N eps BLOCK_SIZE pid
    (mkState m t)
  = (Raise TypeError,
     mkState m
       (t ++ pass_loads (ptr_add X (pid * stride)) N BLOCK_SIZE
          ++ chunk_loads (ptr_add X (pid * stride)) N BLOCK_SIZE 0)).
Proof.
  intros HB HN; unfold _layer_norm_fwd_fused.
  unfold bind at 1; rewrite compute_mean_run by exact HB.
  unfold bind at 1; rewrite compute_var_run by assumption.
  rewrite <- app_assoc; reflexivity.
Qed.

(** An empty row: no loop body runs, the two statistics are stored. *)
Lemma kernel_run_empty (BLOCK_SIZE : nat) m t :
  is_pow2 BLOCK_SIZE = true ->
  _layer_norm_fwd_fused A X Y W B stride Mean Rstd 0 eps BLOCK_SIZE pid
    (mkState m t)
  = (Ok tt,
     mkState
       (upd (upd m (ptr_add Mean pid)
               (cast_to A (fst Mean) (empty_quotient A BLOCK_SIZE)))
          (ptr_add Rstd pid)
          (cast_to A (fst Rstd)
             (fdiv A (of_int A 1)
                (fsqrt A (fadd A (empty_quotient A BLOCK_SIZE) eps)))))
       (t ++ [EvStore (ptr_add Mean pid); EvStore (ptr_add Rstd pid)])).
Proof.
  intros HB; unfold _layer_norm_fwd_fused.
  unfold bind at 1; rewrite compute_mean_run by exact HB.
  unfold bind at 1; rewrite compute_var_empty by exact HB.
  unfold bind at 1, tl_store1 at 1, store1 at 1.
  unfold bind at 1, tl_store1 at 1, store1 at 1.
  rewrite normalize_empty by exact HB.
  cbn [mem trace]; unfold pass_loads; rewrite range_empty; cbn [flat_map].
  rewrite app_nil_r, <- app_assoc; reflexivity.
Qed.

End Runs.

(** ** The three ways a program instance ends *)

Section RowCases.

Context {E F : Type}.
Variable A : arith E F.
Variables (stride N : nat) (eps : F) (BLOCK_SIZE row : nat).
Variable m : memory E.

Lemma run_row_bad_block :
  is_pow2 BLOCK_SIZE = false ->
  run_row_outcome A stride N eps BLOCK_SIZE row m = Raise ValueError
  /\ run_row A stride N eps BLOCK_SIZE row m = (m, []).
Proof.
  intros HB.
  unfold run_row_outcome, run_row, result, exec, row_instance.
  rewrite kernel_run_bad_block by exact HB; split; reflexivity.
Qed.

Lemma run_row_abort :
  is_pow2 BLOCK_SIZE = true -> 1 <= N ->
  run_row_outcome A stride N eps BLOCK_SIZE row m = Raise TypeError
  /\ run_row A stride N eps BLOCK_SIZE row m
     = (m, pass_loads (BufX, row * stride) N BLOCK_SIZE
           ++ chunk_loads (BufX, row * stride) N BLOCK_SIZE 0).
Proof.
  intros HB HN.
  unfold run_row_outcome, run_row, result, exec, row_instance.
  rewrite kernel_run_abort by assumption; split; reflexivity.
Qed.

End RowCases.

Lemma run_row_empty {E F : Type} (A : arith E F) (stride : nat) (eps : F)
    (BLOCK_SIZE row : nat) (m : memory E) :
  is_pow2 BLOCK_SIZE = true ->
  run_row_outcome A stride 0 eps BLOCK_SIZE row m = Ok tt
  /\ run_row A stride 0 eps BLOCK_SIZE row m
     = (upd (upd m (BufMean, row) (empty_mean A BLOCK_SIZE))
          (BufRstd, row) (empty_rstd A eps BLOCK_SIZE),
        [EvStore (BufMean, row); EvStore (BufRstd, row)]).
Proof.
  intros HB.
  unfold run_row_outcome, run_row, result, exec, row_instance.
  rewrite kernel_run_empty by exact HB; split; reflexivity.
Qed.

(** The memory a program instance leaves: untouched, unless the row is
    empty and the block size a power of two. *)
Lemma run_row_mem {E F : Type} (A : arith E F) (stride N : nat) (eps : F)
    (BLOCK_SIZE row : nat) (m : memory E) :
  fst (run_row A stride N eps BLOCK_SIZE row m)
  = if completes N BLOCK_SIZE
    then upd (upd m (BufMean, row) (empty_mean A BLOCK_SIZE))
           (BufRstd, row) (empty_rstd A eps BLOCK_SIZE)
    else m.
Proof.
  unfold completes.
  destruct (is_pow2 BLOCK_SIZE) eqn:HB; cbn [andb].
  - destruct N as [|n]; cbn [Nat.eqb].
    + rewrite (proj2 (run_row_empty A stride eps BLOCK_SIZE row m HB)).
      reflexivity.
    + rewrite (proj2 (run_row_abort A stride (S n) eps BLOCK_SIZE row m HB
                        ltac:(lia))).
      reflexivity.
  - rewrite (proj2 (run_row_bad_block A stride N eps BLOCK_SIZE row m HB)).
    reflexivity.
Qed.

(** A program instance of a non-empty row leaves memory as it was. *)
Lemma run_row_unchanged {E F : Type} (A : arith E F) (stride N : nat)
    (eps : F) (BLOCK_SIZE row : nat) (m : memory E) :
  1 <= N -> fst (run_row A stride N eps BLOCK_SIZE row m) = m.
Proof.
  intros HN; rewrite run_row_mem; unfold completes.
  destruct N; [lia|]. rewrite andb_false_r; reflexivity.
Qed.

Lemma run_row_no_store {E F : Type} (A : arith E F) (stride N : nat)
    (eps : F) (BLOCK_SIZE row : nat) (m : memory E) (e : event) :
  1 <= N ->
  In e (snd (run_row A stride N eps BLOCK_SIZE row m)) ->
  is_store e = false.
Proof.
  intros HN; destruct (is_pow2 BLOCK_SIZE) eqn:HB.
  - rewrite (proj2 (run_row_abort A stride N eps BLOCK_SIZE row m HB HN)).
    cbn [snd]; intros Hin.
    assert (Hload : forall ptrs mask,
              In e (load_events ptrs mask) -> is_store e = false).
    { induction ptrs as [|p ps IH]; intros [|b bs]; simpl; try (intros []).
      rewrite in_app_iff; intros [H | H]; [|eapply IH; exact H].
      destruct b; [destruct H as [<- | []]; reflexivity | destruct H]. }
    apply in_app_iff in Hin; destruct Hin as [Hin | Hin].
    + unfold pass_loads in Hin; apply in_flat_map in Hin.
      destruct Hin as [col [_ Hin]]; eapply Hload; exact Hin.
    + eapply Hload; exact Hin.
  - rewrite (proj2 (run_row_bad_block A stride N eps BLOCK_SIZE row m HB)).
    intros [].
Qed.

(** ** The lanes the mean loop sweeps *)

Lemma map_add_seq (col : nat) :
  forall len k, map (fun i => col + i) (seq k len) = seq (col + k) len.
Proof.
  induction len as [|n IH]; intros k; simpl; [reflexivity|].
  rewrite IH, Nat.add_succ_r; reflexivity.
Qed.

Lemma chunk_offsets_seq (col BLOCK_SIZE : nat) :
  chunk_offsets col BLOCK_SIZE = seq col BLOCK_SIZE.
Proof.
  unfold chunk_offsets.
  rewrite Nat.sub_0_r, map_add_seq, Nat.add_0_r; reflexivity.
Qed.

Lemma chunk_offsets_length (col BLOCK_SIZE : nat) :
  length (chunk_offsets col BLOCK_SIZE) = BLOCK_SIZE.
Proof. rewrite chunk_offsets_seq; apply length_seq. Qed.

(** The chunks are consecutive: together the lanes of all iterations are
    the columns [start, start + chunks * BLOCK_SIZE). *)
Lemma lanes_from (stop BLOCK_SIZE : nat) :
  forall fuel start,
    flat_map (fun col => chunk_offsets col BLOCK_SIZE)
      (range_from fuel start stop BLOCK_SIZE)
    = seq start (length (range_from fuel start stop BLOCK_SIZE) * BLOCK_SIZE).
Proof.
  induction fuel as [|fuel IH]; intros start; simpl; [reflexivity|].
  destruct (start <? stop); simpl; [|reflexivity].
  rewrite IH, chunk_offsets_seq, <- seq_app; reflexivity.
Qed.

(** The loop ends because the column reached [N], not for lack of fuel:
    the chunks cover all [N] columns. *)
Lemma chunks_cover_from (stop BLOCK_SIZE : nat) :
  0 < BLOCK_SIZE ->
  forall fuel start,
    stop - start <= fuel ->
    stop <= start + length (range_from fuel start stop BLOCK_SIZE) * BLOCK_SIZE.
Proof.
  intros HB; induction fuel as [|fuel IH]; intros start Hf; simpl; [lia|].
  destruct (Nat.ltb_spec start stop) as [Hlt|Hge]; simpl; [|lia].
  specialize (IH (start + BLOCK_SIZE) ltac:(lia)); lia.
Qed.

Lemma lanes (N BLOCK_SIZE : nat) :
  0 < BLOCK_SIZE ->
  exists pad,
    flat_map (fun col => chunk_offsets col BLOCK_SIZE) (range 0 N BLOCK_SIZE)
    = seq 0 N ++ seq N pad.
Proof.
  intros HB; unfold range; rewrite lanes_from.
  assert (H := chunks_cover_from N BLOCK_SIZE HB (N - 0) 0 (Nat.le_refl _)).
  exists (length (range_from (N - 0) 0 N BLOCK_SIZE) * BLOCK_SIZE - N).
  rewrite <- seq_app; f_equal; lia.
Qed.

Lemma loaded_map {E : Type} (m : memory E) (P : ptr) (N : nat) (other : E) :
  forall offs,
    loaded m (ptr_add_block P offs) (lt_mask offs N) other
    = map (fun o => if o <? N then m (ptr_add P o) else other) offs.
Proof.
  induction offs as [|o offs IH]; simpl; [reflexivity|].
  rewrite IH; reflexivity.
Qed.


Lemma block2_map {A F : Type} (op : F -> F -> F) (f g : A -> F) :
  forall l, block2 op (map f l) (map g l) = map (fun a => op (f a) (g a)) l.
Proof.
  induction l as [|a l IH]; simpl; [reflexivity|].
  rewrite IH; reflexivity.
Qed.

Section MeanLanes.

Context {E F : Type}.
Variable A : arith E F.
Variables (m : memory E) (X : ptr) (N BLOCK_SIZE : nat).

Lemma row_block_lanes (col : nat) :
  row_block A m X N BLOCK_SIZE col
  = map (fun i => lane_value A m X N (col + i)) (seq 0 BLOCK_SIZE).
Proof.
  unfold row_block, chunk_offsets, lane_value.
  rewrite loaded_map, Nat.sub_0_r, !map_map; reflexivity.
Qed.

Lemma accumulate_lanes :
  forall cols (acc : nat -> F),
    fold_left
      (fun a col => block2 (fadd A) a (row_block A m X N BLOCK_SIZE col))
      cols (map acc (seq 0 BLOCK_SIZE))
    = map (fun i =>
             fold_left
               (fun a col => fadd A a (lane_value A m X N (col + i)))
               cols (acc i))
        (seq 0 BLOCK_SIZE).
Proof.
  induction cols as [|col cols IH]; intros acc; simpl; [reflexivity|].
  rewrite row_block_lanes, block2_map.
  apply (IH (fun i => fadd A (acc i) (lane_value A m X N (col + i)))).
Qed.

(** Every lane of [_mean] is the float32 sum, in loop order, of the upcast
    elements of its columns. *)
Lemma mean_block_lanes :
  mean_block A m X N BLOCK_SIZE
  = map (mean_lane A m X N (range 0 N BLOCK_SIZE)) (seq 0 BLOCK_SIZE).
Proof.
  unfold mean_block, mean_lane.
  replace (repeat (fzero A) BLOCK_SIZE)
    with (map (fun _ : nat => fzero A) (seq 0 BLOCK_SIZE)).
  - apply accumulate_lanes.
  - generalize 0; induction BLOCK_SIZE as [|n IH]; intros k; simpl;
      [reflexivity | rewrite IH; reflexivity].
Qed.

End MeanLanes.

(** ** The mean pass over the reals *)

Section RealSums.

Local Open Scope R_scope.

Lemma Rsum_app (u v : list R) : Rsum (u ++ v) = Rsum u + Rsum v.
Proof.
  induction u as [|a u IH]; simpl; [lra|].
  change (a + Rsum (u ++ v) = a + Rsum u + Rsum v); rewrite IH; lra.
Qed.

Lemma tl_sum_Rsum (v : list R) : tl_sum 0 Rplus v = Rsum v.
Proof.
  unfold tl_sum.
  assert (H : forall a, fold_left Rplus v a = a + Rsum v).
  { induction v as [|b v IH]; intros a; simpl; [lra|].
    change (fold_left Rplus v (a + b) = a + (b + Rsum v)).
    rewrite IH; lra. }
  rewrite H; lra.
Qed.

Lemma Rsum_zeros (n : nat) : Rsum (repeat 0 n) = 0.
Proof.
  induction n as [|n IH]; simpl; [reflexivity|].
  change (0 + Rsum (repeat 0 n) = 0); rewrite IH; lra.
Qed.

Lemma block2_length {A : Type} (op : A -> A -> A) :
  forall u v, length u = length v -> length (block2 op u v) = length u.
Proof.
  induction u as [|a u IH]; intros [|b v] H; simpl in *;
    try reflexivity; try discriminate.
  rewrite IH by lia; reflexivity.
Qed.

Lemma Rsum_block2_plus :
  forall u v, length u = length v ->
    Rsum (block2 Rplus u v) = Rsum u + Rsum v.
Proof.
  induction u as [|a u IH]; intros [|b v] H; simpl in *;
    try discriminate; [lra|].
  change (a + b + Rsum (block2 Rplus u v) = a + Rsum u + (b + Rsum v)).
  rewrite IH by lia; lra.
Qed.

Lemma flat_map_map_in {A B C : Type} (h : B -> C) (offs : A -> list B)
    (blk : A -> list C) :
  forall cols,
    (forall col, In col cols -> blk col = map h (offs col)) ->
    flat_map blk cols = map h (flat_map offs cols).
Proof.
  induction cols as [|col cols IH]; intros H; simpl; [reflexivity|].
  rewrite map_app, <- IH, H; auto with datatypes.
Qed.

(** Accumulating blocks lane by lane and reducing at the end adds up
    every lane of every block. *)
Lemma Rsum_accumulate {A : Type} (n : nat) (blk : A -> list R) :
  forall cols acc,
    length acc = n ->
    (forall col, In col cols -> length (blk col) = n) ->
    Rsum (fold_left (fun acc col => block2 Rplus acc (blk col)) cols acc)
    = Rsum acc + Rsum (flat_map blk cols).
Proof.
  induction cols as [|col cols IH]; intros acc Hacc Hblk; simpl; [lra|].
  rewrite IH.
  - rewrite Rsum_block2_plus, Rsum_app; [lra|].
    rewrite Hacc, Hblk; auto with datatypes.
  - rewrite block2_length; [exact Hacc|].
    rewrite Hacc, Hblk; auto with datatypes.
  - intros c Hc; apply Hblk; auto with datatypes.
Qed.

Variables (undef : R) (m : memory R) (X : ptr) (N BLOCK_SIZE : nat).

(** Column [c] as a masked load delivers it. *)
Local Abbreviation lane :=
  (fun c : nat => if (c <? N)%nat then m (ptr_add X c) else 0).

Lemma R_row_block (col : nat) :
  row_block (R_arith undef) m X N BLOCK_SIZE col
  = map lane (chunk_offsets col BLOCK_SIZE).
Proof.
  unfold row_block; cbn [to_f32 s_zero R_arith].
  rewrite map_id, loaded_map; reflexivity.
Qed.

Lemma Rsum_masked (a len : nat) :
  (N <= a)%nat -> Rsum (map lane (seq a len)) = 0.
Proof.
  revert a; induction len as [|len IH]; intros a Ha; [reflexivity|].
  cbn [seq map].
  change (lane a + Rsum (map lane (seq (S a) len)) = 0).
  rewrite IH by lia.
  cbv beta; destruct (Nat.ltb_spec a N); [lia | lra].
Qed.

Lemma Rsum_active :
  Rsum (map lane (seq 0 N)) = Rsum (map (fun c => m (ptr_add X c)) (seq 0 N)).
Proof.
  f_equal; apply map_ext_in; intros c Hc; apply in_seq in Hc.
  destruct (Nat.ltb_spec c N); [reflexivity | lia].
Qed.

(** The reduced mean accumulator is the sum of the row. *)
Lemma R_mean_block_sum :
  (0 < BLOCK_SIZE)%nat ->
  Rsum (mean_block (R_arith undef) m X N BLOCK_SIZE)
  = Rsum (map (fun c => m (ptr_add X c)) (seq 0 N)).
Proof.
  intros HB; unfold mean_block.
  change (fadd (R_arith undef)) with Rplus.
  change (fzero (R_arith undef)) with 0.
  rewrite Rsum_accumulate with (n := BLOCK_SIZE).
  - rewrite Rsum_zeros.
    rewrite flat_map_map_in
      with (h := lane) (offs := fun col => chunk_offsets col BLOCK_SIZE)
      by (intros col _; apply R_row_block).
    destruct (lanes N BLOCK_SIZE HB) as [pad ->].
    rewrite map_app, Rsum_app, Rsum_active, Rsum_masked by lia; lra.
  - apply repeat_length.
  - intros col _; rewrite R_row_block, length_map.
    apply chunk_offsets_length.
Qed.

End RealSums.

(** The mean the mean pass returns is the arithmetic mean of the row. *)
Lemma R_mean_value (undef : R) (m : memory R) (stride N BLOCK_SIZE row : nat) :
  0 < BLOCK_SIZE ->
  mean_value (R_arith undef) m (BufX, row * stride) N BLOCK_SIZE
  = arithmetic_mean (row_elements m stride N row).
Proof.
  intros HB; unfold mean_value.
  change (fadd (R_arith undef)) with Rplus.
  change (fzero (R_arith undef)) with 0%R.
  change (fdiv (R_arith undef)) with Rdiv.
  change (of_int (R_arith undef)) with INR.
  rewrite tl_sum_Rsum, R_mean_block_sum by exact HB.
  unfold arithmetic_mean, row_elements.
  rewrite length_map, length_seq; reflexivity.
Qed.

Lemma R_compute_mean_result (m : memory R) (stride N BLOCK_SIZE row : nat) :
  is_pow2 BLOCK_SIZE = true ->
  result (R_compute_mean (BufX, row * stride) N BLOCK_SIZE) m
  = Ok (arithmetic_mean (row_elements m stride N row)).
Proof.
  intros HB; unfold result, R_compute_mean.
  rewrite compute_mean_run by exact HB; cbn [fst].
  rewrite R_mean_value by (apply is_pow2_pos; exact HB); reflexivity.
Qed.

(** ** Evaluating the kernel on concrete rows *)

Ltac real_blocks :=
  repeat match goal with
         | |- _ :: _ = _ :: _ => f_equal
         end; try reflexivity; try lra.

Lemma scenario_5_mean (stale : R) :
  arithmetic_mean
    (row_elements
       (tensors [1; 2; 3; 4; 5]%R [1; 1; 1; 1; 1]%R [0; 0; 0; 0; 0]%R stale)
       5 5 0)
  = 3%R.
Proof. unfold arithmetic_mean, row_elements; simpl; lra. Qed.

Lemma scenario_5_variance (stale : R) :
  population_variance
    (row_elements
       (tensors [1; 2; 3; 4; 5]%R [1; 1; 1; 1; 1]%R [0; 0; 0; 0; 0]%R stale)
       5 5 0)
  = 2%R.
Proof.
  unfold population_variance; rewrite scenario_5_mean.
  unfold row_elements; simpl; lra.
Qed.

Lemma scenario_4_mean :
  arithmetic_mean (row_elements scenario_4 4 4 0) = 2.5%R.
Proof. unfold arithmetic_mean, row_elements; simpl; lra. Qed.

(** 1 / sqrt a lies between bounds whose squares bracket 1 / a. *)
Lemma inv_sqrt_bounds (a lo hi : R) :
  (0 < a)%R -> (0 <= lo)%R -> (0 < hi)%R ->
  (lo * lo * a < 1)%R -> (1 < hi * hi * a)%R ->
  (lo < 1 / sqrt a < hi)%R.
Proof.
  intros Ha Hlo Hhi Hl Hh.
  assert (Hs : (0 < sqrt a)%R) by (apply sqrt_lt_R0; exact Ha).
  assert (Hsq : (sqrt a * sqrt a = a)%R) by (apply sqrt_sqrt; lra).
  set (r := (1 / sqrt a)%R).
  assert (Hr : (r * sqrt a = 1)%R) by (unfold r; field; lra).
  assert (Hr0 : (0 < r)%R) by (unfold r; apply Rdiv_lt_0_compat; lra).
  assert (Hra : (r * r * a = 1)%R).
  { rewrite <- Hsq.
    replace (r * r * (sqrt a * sqrt a))%R
      with ((r * sqrt a) * (r * sqrt a))%R by ring.
    rewrite Hr; ring. }
  split.
  - destruct (Rlt_le_dec lo r) as [H | H]; [exact H | exfalso].
    assert (r * r <= lo * lo)%R by nra.
    assert (r * r * a <= lo * lo * a)%R by nra. lra.
  - destruct (Rlt_le_dec r hi) as [H | H]; [exact H | exfalso].
    assert (hi * hi <= r * r)%R by nra.
    assert (hi * hi * a <= r * r * a)%R by nra. lra.
Qed.

(** The program instance of the row [1,2,3,4,5] with block size 4 raises
    and leaves the stale output tensors as they were. *)
Lemma scenario_5_stale_run (undef : R) :
  R_run_row_outcome undef 5 5 eps_1e5 4 0 scenario_5_stale = Raise TypeError
  /\ fst (R_run_row undef 5 5 eps_1e5 4 0 scenario_5_stale)
     = scenario_5_stale.
Proof.
  unfold R_run_row_outcome, R_run_row; split.
  - apply run_row_abort; [reflexivity | lia].
  - apply run_row_unchanged; lia.
Qed.

(** The rational instance runs: the program instance of a row of five
    elements with block size 4 raises TypeError after nine loads and leaves
    memory as it was; with block size 3 it raises ValueError at once. *)
Example Q_run_scenario_5 :
  run_row_outcome Q_arith 5 5 0%Q 4 0 (Z_tensors [1; 2; 3; 4; 5]%Z)
  = Raise TypeError
  /\ snd (run_row Q_arith 5 5 0%Q 4 0 (Z_tensors [1; 2; 3; 4; 5]%Z))
     = map (fun c => EvLoad (BufX, c)) [0; 1; 2; 3; 4; 0; 1; 2; 3]
  /\ fst (run_row Q_arith 5 5 0%Q 4 0 (Z_tensors [1; 2; 3; 4; 5]%Z))
       (BufY, 0) = 0%Z
  /\ result (compute_mean Q_arith (BufX, 0) 5 4) (Z_tensors [1; 2; 3; 4; 5]%Z)
     = Ok (15 # 5)%Q
  /\ run_row_outcome Q_arith 5 5 0%Q 3 0 (Z_tensors [1; 2; 3; 4; 5]%Z)
     = Raise ValueError.
Proof. vm_compute; repeat split; reflexivity. Qed.

(** * The claims *)

(** C1 (the code departs from the claim).  The claim: in the variance pass
    a masked lane counts as 0 after the mean subtraction and adds nothing
    to the sum of squared deviations; for N = 5 and block size 4 the three
    masked lanes of the second chunk add zero to the mean sum and to the
    variance sum.  The code, on the row [1,2,3,4,5]: the mean accumulator
    receives 0 from the three masked lanes and the mean is 3, but no
    variance sum exists: every iteration of the variance loop raises
    TypeError at line 38, where [tl.where] is called with the keyword
    [others] that it does not have, so the variance pass raises in its
    first iteration. *)
Theorem variance_pass_raises_at_line_38 :
  (result (R_mean_loop (BufX, 0%nat) 5 4) scenario_5 = Ok [1 + 5; 2; 3; 4]
   /\ result (R_compute_mean (BufX, 0%nat) 5 4) scenario_5 = Ok 3
   /\ result (R_var_chunk (BufX, 0%nat) 5 4 3 0) scenario_5 = Raise TypeError
   /\ result (R_var_chunk (BufX, 0%nat) 5 4 3 4) scenario_5 = Raise TypeError
   /\ result (R_compute_var (BufX, 0%nat) 5 4 3) scenario_5
      = Raise TypeError)%R.
Proof.
  unfold result, R_mean_loop, R_compute_mean, R_var_chunk, R_compute_var.
  rewrite mean_loop_run, compute_mean_run, !var_chunk_run, compute_var_run
    by (reflexivity || lia).
  cbn [fst]; repeat split.
  - unfold mean_block; simpl; unfold fzero; simpl; f_equal; real_blocks.
  - unfold mean_value, mean_block; simpl; unfold fzero; simpl; f_equal; lra.
Qed.

(** C2 (the code departs from the claim).  The claim: for every column
    j < N the stored Y[row,j] is (X[row,j] - mean[row]) * rstd[row] * W[j]
    + B[j] for the stored mean and rstd.  The code, on the row [1,2,3,4,5]
    with block size 4 over output tensors that hold 7: the program instance
    raises TypeError (line 38) before line 53, every element of Y still
    holds 7, and in no column j < 5 does the equation hold. *)
Theorem output_never_stored (undef : R) :
  let m' := fst (R_run_row undef 5 5 eps_1e5 4 0 scenario_5_stale) in
  R_run_row_outcome undef 5 5 eps_1e5 4 0 scenario_5_stale = Raise TypeError
  /\ (forall i, m' (BufY, i) = 7%R)
  /\ (forall j, j < 5 ->
        m' (BufY, 0 * 5 + j)
        <> ((scenario_5_stale (BufX, (0 * 5 + j)%nat) - m' (BufMean, 0%nat))
            * m' (BufRstd, 0%nat) * scenario_5_stale (BufW, j)
            + scenario_5_stale (BufB, j))%R).
Proof.
  intros m'; unfold m'.
  destruct (scenario_5_stale_run undef) as [Hout Hmem].
  rewrite Hmem; split; [exact Hout | split; [reflexivity|]].
  intros j Hj.
  do 5 (destruct j as [|j]; [simpl; lra|]); lia.
Qed.

(** C3 (the code departs from the claim).  The claim: the stored Mean[row]
    is the arithmetic mean of the row's N elements.  The code, on the row
    [1,2,3,4,5] with block size 4 over output tensors that hold 7: the mean
    pass does compute the arithmetic mean, 3, but the program instance
    raises TypeError (line 38) before the store of line 43, and Mean[0]
    still holds 7. *)
Theorem mean_computed_but_not_stored (undef : R) :
  let xs := row_elements scenario_5_stale 5 5 0 in
  result (R_compute_mean (BufX, 0 * 5) 5 4) scenario_5_stale
  = Ok (arithmetic_mean xs)
  /\ arithmetic_mean xs = 3%R
  /\ R_run_row_outcome undef 5 5 eps_1e5 4 0 scenario_5_stale
     = Raise TypeError
  /\ fst (R_run_row undef 5 5 eps_1e5 4 0 scenario_5_stale) (BufMean, 0)
     = 7%R
  /\ fst (R_run_row undef 5 5 eps_1e5 4 0 scenario_5_stale) (BufMean, 0)
     <> arithmetic_mean xs.
Proof.
  intros xs; unfold xs.
  destruct (scenario_5_stale_run undef) as [Hout Hmem].
  rewrite Hmem.
  split; [apply R_compute_mean_result; reflexivity|].
  split; [apply scenario_5_mean|].
  split; [exact Hout|].
  split; [reflexivity|].
  unfold scenario_5_stale; rewrite scenario_5_mean; simpl; lra.
Qed.

(** C4 (the code departs from the claim).  The claim: the stored Rstd[row]
    is 1 / sqrt (v + eps) with v the population variance of the row's N
    elements.  The code, on the row [1,2,3,4,5] (population variance 2)
    with block size 4 and eps = 1e-5 over output tensors that hold 7: the
    program instance raises TypeError (line 38) before the store of line
    44; Rstd[0] still holds 7, which is not 1 / sqrt (2 + eps). *)
Theorem rstd_never_stored (undef : R) :
  let xs := row_elements scenario_5_stale 5 5 0 in
  population_variance xs = 2%R
  /\ R_run_row_outcome undef 5 5 eps_1e5 4 0 scenario_5_stale
     = Raise TypeError
  /\ fst (R_run_row undef 5 5 eps_1e5 4 0 scenario_5_stale) (BufRstd, 0)
     = 7%R
  /\ fst (R_run_row undef 5 5 eps_1e5 4 0 scenario_5_stale) (BufRstd, 0)
     <> (1 / sqrt (population_variance xs + eps_1e5))%R.
Proof.
  intros xs; unfold xs.
  destruct (scenario_5_stale_run undef) as [Hout Hmem].
  rewrite Hmem.
  split; [apply scenario_5_variance|].
  split; [exact Hout|].
  split; [reflexivity|].
  unfold scenario_5_stale; rewrite scenario_5_variance; simpl.
  assert (H : (0 < 1 / sqrt (2 + eps_1e5) < 1)%R)
    by (unfold eps_1e5; apply inv_sqrt_bounds; lra).
  lra.
Qed.

(** C5 (the code departs from the claim).  The claim: for N = 4, block
    size 4, X = [1,2,3,4], W = [1,1,1,1], B = [0,0,0,0], eps = 1e-5 the
    kernel produces mean 2.5, variance 1.25, rstd 0.8944 and
    Y = [-1.3416, -0.4472, 0.4472, 1.3416].  The code: the mean pass
    computes 2.5, the variance pass raises TypeError at line 38, and the
    program instance ends there; over zeroed output tensors Mean[0],
    Rstd[0] and the row of Y still hold 0. *)
Theorem scenario_N4_block4_raises (undef : R) :
  let m' := fst (R_run_row undef 4 4 eps_1e5 4 0 scenario_4) in
  (result (R_compute_mean (BufX, 0%nat) 4 4) scenario_4 = Ok 2.5
   /\ result (R_compute_var (BufX, 0%nat) 4 4 2.5) scenario_4
      = Raise TypeError
   /\ R_run_row_outcome undef 4 4 eps_1e5 4 0 scenario_4 = Raise TypeError
   /\ m' (BufMean, 0%nat) = 0
   /\ m' (BufRstd, 0%nat) = 0
   /\ (forall j : nat, m' (BufY, j) = 0))%R.
Proof.
  intros m'; unfold m', R_run_row, R_run_row_outcome.
  rewrite run_row_unchanged by lia.
  split; [|split; [|split; [|repeat split]]].
  - change (BufX, 0) with (BufX, 0 * 4).
    rewrite R_compute_mean_result by reflexivity.
    rewrite scenario_4_mean; reflexivity.
  - unfold result, R_compute_var.
    rewrite compute_var_run by (reflexivity || lia); reflexivity.
  - apply run_row_abort; [reflexivity | lia].
Qed.

(** C6.  Every load and every store of the row's program instance is
    masked to columns below N: an access to X or Y is to element
    row * stride + c with c < N, an access to W or B to element c < N (the
    only other accesses are the stores of Mean[row] and Rstd[row]); an
    element of X or Y outside the row's N columns is never read or written
    and keeps its value. *)
Theorem accesses_masked_below_N
    (E F : Type) (A : arith E F)
    (stride N : nat) (eps : F) (BLOCK_SIZE row : nat) (m : memory E) :
  let r := run_row A stride N eps BLOCK_SIZE row m in
  (forall e, In e (snd r) ->
     (exists c, c < N /\
        (e = EvLoad (BufX, row * stride + c) \/ e = EvLoad (BufW, c) \/
         e = EvLoad (BufB, c) \/ e = EvStore (BufY, row * stride + c)))
     \/ e = EvStore (BufMean, row) \/ e = EvStore (BufRstd, row))
  /\ (forall i, in_row stride N row i = false ->
        ~ In (EvLoad (BufX, i)) (snd r) /\ ~ In (EvStore (BufY, i)) (snd r)
        /\ fst r (BufX, i) = m (BufX, i) /\ fst r (BufY, i) = m (BufY, i))
  /\ (forall i, N <= i ->
        ~ In (EvLoad (BufW, i)) (snd r) /\ ~ In (EvLoad (BufB, i)) (snd r)).
Proof.
  intros r; split; [|split].
  - intros e He; eapply run_row_events; exact He.
  - intros i Hi; repeat split.
    + intros H; apply run_row_access_ok in H; simpl in H; congruence.
    + intros H; apply run_row_access_ok in H; simpl in H; congruence.
    + apply run_row_frame; reflexivity.
    + apply run_row_frame; exact Hi.
  - intros i Hi; split; intros H; apply run_row_access_ok in H; simpl in H;
      apply Nat.ltb_lt in H; lia.
Qed.

(** C7 (the code departs from the claim).  The claim: Mean[row] and
    Rstd[row] are stored before any store into the row of Y, and the stored
    values are the statistics of exactly the row's N elements.  The code,
    on the row [1,2,3,4,5] with block size 4 over output tensors that hold
    7: the program instance raises TypeError (line 38) having made nine
    loads and no store at all; Mean[0] and Rstd[0] are never written and
    still hold 7, which is neither the row's mean nor its reciprocal
    standard deviation. *)
Theorem no_store_is_reached (undef : R) :
  let r := R_run_row undef 5 5 eps_1e5 4 0 scenario_5_stale in
  let xs := row_elements scenario_5_stale 5 5 0 in
  R_run_row_outcome undef 5 5 eps_1e5 4 0 scenario_5_stale = Raise TypeError
  /\ length (snd r) = 9
  /\ (forall e, In e (snd r) -> is_store e = false)
  /\ fst r (BufMean, 0) <> arithmetic_mean xs
  /\ fst r (BufRstd, 0) <> (1 / sqrt (population_variance xs + eps_1e5))%R.
Proof.
  intros r xs; unfold r, xs.
  destruct (scenario_5_stale_run undef) as [Hout Hmem].
  rewrite Hmem.
  split; [exact Hout|].
  split; [unfold R_run_row;
          rewrite (proj2 (run_row_abort (R_arith undef) 5 5 eps_1e5 4 0
                            scenario_5_stale eq_refl ltac:(lia)));
          reflexivity|].
  split; [intros e He; unfold R_run_row in He;
          eapply run_row_no_store; [|exact He]; lia|].
  unfold scenario_5_stale.
  rewrite scenario_5_mean, scenario_5_variance; simpl.
  assert (H : (0 < 1 / sqrt (2 + eps_1e5) < 1)%R)
    by (unfold eps_1e5; apply inv_sqrt_bounds; lra).
  split; lra.
Qed.

(** C8 (the code departs from the claim).  The claim: the mean sum, the
    variance sum and the normalise computation are all carried out in
    float32 whatever the storage precision, elements being upcast on load
    and results cast back on store.  The code, for N = 5 and block size 4,
    in any arithmetic and on any memory: each lane of the mean accumulator
    is the float32 sum of the upcast elements of its columns (of the upcast
    zero in a masked lane); but the variance pass raises TypeError at line
    38 before anything is added to the variance accumulator, line 52 is
    never evaluated, and no result is cast and stored: memory is left as it
    was. *)
Theorem float32_mean_then_raise
    (E F : Type) (A : arith E F) (eps mean : F) (m : memory E) :
  let up := to_f32 A in
  let x := fun c => m (BufX, c) in
  result (mean_loop A (BufX, 0) 5 4) m
  = Ok [fadd A (fadd A (fzero A) (up (x 0))) (up (x 4));
        fadd A (fadd A (fzero A) (up (x 1))) (up (s_zero A));
        fadd A (fadd A (fzero A) (up (x 2))) (up (s_zero A));
        fadd A (fadd A (fzero A) (up (x 3))) (up (s_zero A))]
  /\ result (compute_var A (BufX, 0) 5 4 mean) m = Raise TypeError
  /\ run_row_outcome A 5 5 eps 4 0 m = Raise TypeError
  /\ fst (run_row A 5 5 eps 4 0 m) = m.
Proof.
  intros up x; unfold result.
  rewrite mean_loop_run, compute_var_run by (reflexivity || lia).
  split; [reflexivity | split; [reflexivity | split]].
  - apply run_row_abort; [reflexivity | lia].
  - apply run_row_unchanged; lia.
Qed.




(** C10.  The kernel never writes X, W or B: the only elements the row's
    program instance stores to are the row's N columns of Y, Mean[row] and
    Rstd[row]; X, W and B, and every other element of memory, hold after
    the run what they held before.  This holds for any arithmetic on the
    value type. *)
Theorem only_row_outputs_written
    (E F : Type) (A : arith E F)
    (stride N : nat) (eps : F) (BLOCK_SIZE row : nat) (m : memory E) :
  let r := run_row A stride N eps BLOCK_SIZE row m in
  (forall p, In (EvStore p) (snd r) ->
     p = (BufMean, row) \/ p = (BufRstd, row)
     \/ exists c, c < N /\ p = (BufY, row * stride + c))
  /\ (forall i, fst r (BufX, i) = m (BufX, i)
                /\ fst r (BufW, i) = m (BufW, i)
                /\ fst r (BufB, i) = m (BufB, i))
  /\ (forall p, output_loc stride N row p = false -> fst r p = m p).
Proof.
  intros r; split; [|split].
  - intros p Hp; apply run_row_events in Hp.
    destruct Hp as [[c [Hc [Heq | [Heq | [Heq | Heq]]]]] | [Heq | Heq]];
      try discriminate; inversion Heq; eauto.
  - intros i; repeat split; apply run_row_frame; reflexivity.
  - intros p Hp; apply run_row_frame; exact Hp.
Qed.

(** * Further properties of the kernel *)

(** ** Undefined lanes *)



(** ** Running the kernel again, and running several rows *)











(** ** How a program instance ends *)

(** X1.  A block size that is not a power of two (0 included) is refused
    at line 27: the program instance raises ValueError before any access
    and leaves memory as it was.  (Any arithmetic.) *)
Theorem block_size_must_be_power_of_two
    (E F : Type) (A : arith E F)
    (stride N : nat) (eps : F) (BLOCK_SIZE row : nat) (m : memory E) :
  is_pow2 BLOCK_SIZE = false ->
  run_row_outcome A stride N eps BLOCK_SIZE row m = Raise ValueError
  /\ snd (run_row A stride N eps BLOCK_SIZE row m) = []
  /\ fst (run_row A stride N eps BLOCK_SIZE row m) = m.
Proof.
  intros HB.
  destruct (run_row_bad_block A stride N eps BLOCK_SIZE row m HB) as [O R].
  rewrite O, R; repeat split.
Qed.

Lemma block_size_must_be_power_of_two_witness :
  is_pow2 3 = false
  /\ run_row_outcome (R_arith 0%R) 5 5 eps_1e5 3 0 scenario_5
     = Raise ValueError
  /\ snd (run_row (R_arith 0%R) 5 5 eps_1e5 3 0 scenario_5) = []
  /\ fst (run_row (R_arith 0%R) 5 5 eps_1e5 3 0 scenario_5) = scenario_5.
Proof.
  split; [reflexivity|].
  apply (block_size_must_be_power_of_two R R (R_arith 0%R) 5 5 eps_1e5 3 0
           scenario_5); reflexivity.
Defined.

(** X2.  The program instance of a non-empty row never completes and never
    stores: for N >= 1 it raises (TypeError at line 38 for a power-of-two
    block size, ValueError at line 27 otherwise), its trace holds loads
    only, and Mean, Rstd, Y and every other location are left as they
    were.  (Any arithmetic.) *)
Theorem non_empty_row_raises_without_store
    (E F : Type) (A : arith E F)
    (stride N : nat) (eps : F) (BLOCK_SIZE row : nat) (m : memory E) :
  1 <= N ->
  run_row_outcome A stride N eps BLOCK_SIZE row m
  = Raise (if is_pow2 BLOCK_SIZE then TypeError else ValueError)
  /\ (forall e, In e (snd (run_row A stride N eps BLOCK_SIZE row m)) ->
        is_store e = false)
  /\ fst (run_row A stride N eps BLOCK_SIZE row m) = m.
Proof.
  intros HN; split; [|split].
  - destruct (is_pow2 BLOCK_SIZE) eqn:HB.
    + apply run_row_abort; assumption.
    + apply run_row_bad_block; assumption.
  - intros e He; eapply run_row_no_store; [exact HN | exact He].
  - apply run_row_unchanged; exact HN.
Qed.

Lemma non_empty_row_raises_without_store_witness :
  1 <= 4
  /\ run_row_outcome (R_arith 0%R) 4 4 eps_1e5 4 0 scenario_4
     = Raise (if is_pow2 4 then TypeError else ValueError)
  /\ (forall e,
        In e (snd (run_row (R_arith 0%R) 4 4 eps_1e5 4 0 scenario_4)) ->
        is_store e = false)
  /\ fst (run_row (R_arith 0%R) 4 4 eps_1e5 4 0 scenario_4) = scenario_4.
Proof.
  split; [lia|].
  apply (non_empty_row_raises_without_store R R (R_arith 0%R) 4 4 eps_1e5
           4 0 scenario_4); lia.
Defined.

(** *** The loads made before the exception *)










(** ** The mean pass *)

(** X4.  The mean pass is right in exact arithmetic: for a power-of-two
    block size the mean it returns (lines 26-32) is the arithmetic mean of
    the row's N elements, masked lanes of the tail chunk adding 0 to the
    block of running sums. *)
Theorem mean_pass_computes_arithmetic_mean
    (m : memory R) (stride N BLOCK_SIZE row : nat) :
  is_pow2 BLOCK_SIZE = true ->
  result (R_compute_mean (BufX, row * stride) N BLOCK_SIZE) m
  = Ok (arithmetic_mean (row_elements m stride N row)).
Proof.
  intros HB; apply R_compute_mean_result; exact HB.
Qed.

Lemma mean_pass_computes_arithmetic_mean_witness :
  is_pow2 4 = true /\
  result (R_compute_mean (BufX, 0 * 5) 5 4) scenario_5
  = Ok (arithmetic_mean (row_elements scenario_5 5 5 0)).
Proof.
  split; [reflexivity|].
  apply (mean_pass_computes_arithmetic_mean scenario_5 5 5 4 0); reflexivity.
Defined.

(** X16.  The mean accumulation is a float32 accumulation over upcast
    elements, in any arithmetic and for any storage type: for a
    power-of-two block size the mean loop returns a block whose lane i is
    the float32 sum, in loop order, of [to_f32] of the elements of the
    columns i, BLOCK_SIZE + i, 2 * BLOCK_SIZE + i, ... of the row, a column
    at or beyond N standing for the upcast [other = 0.] of its load. *)
Theorem mean_accumulates_upcast_elements
    (E F : Type) (A : arith E F) (X : ptr) (N BLOCK_SIZE : nat)
    (m : memory E) :
  is_pow2 BLOCK_SIZE = true ->
  result (mean_loop A X N BLOCK_SIZE) m
  = Ok (map (fun i =>
               fold_left
                 (fun acc col =>
                    fadd A acc
                      (to_f32 A (if col + i <? N
                                 then m (ptr_add X (col + i))
                                 else s_zero A)))
                 (range 0 N BLOCK_SIZE) (fzero A))
          (seq 0 BLOCK_SIZE)).
Proof.
  intros HB; unfold result.
  rewrite mean_loop_run by exact HB; cbn [fst].
  rewrite mean_block_lanes; reflexivity.
Qed.

Lemma mean_accumulates_upcast_elements_witness :
  is_pow2 4 = true /\
  result (mean_loop Q_arith (BufX, 0) 5 4) (Z_tensors [1; 2; 3; 4; 5]%Z)
  = Ok (map (fun i =>
               fold_left
                 (fun acc col =>
                    fadd Q_arith acc
                      (to_f32 Q_arith
                         (if col + i <? 5
                          then Z_tensors [1; 2; 3; 4; 5]%Z
                                 (ptr_add (BufX, 0) (col + i))
                          else s_zero Q_arith)))
                 (range 0 5 4) (fzero Q_arith))
          (seq 0 4)).
Proof.
  split; [reflexivity|].
  apply (mean_accumulates_upcast_elements Z Q Q_arith (BufX, 0) 5 4
           (Z_tensors [1; 2; 3; 4; 5]%Z)); reflexivity.
Defined.

(** ** The empty row *)


